(** * haploSC2: bin/extract-amplicon.py

    A shallow embedding of the amplicon extraction script: the BED scan
    ([parse_bed_file]), the read selection ([extract_mapped_reads]), the
    in-place trimming ([trim_mapped_reads]) and the writer
    ([write_mapped_reads_to_bam]), with the properties the specification
    states about them.

    Python exceptions are values of [exn] carried by the [result] monad;
    integers are [Z]; text is [string], read as a sequence of code points
    below 256; read objects live in a store and lists hold references to
    them, because trimming assigns to their attributes in place.  The read
    objects are those of the alignment library and their attributes behave on
    assignment as the library documents. *)

From Stdlib Require Import ZArith List String Ascii Bool Lia Arith.
From Stdlib Require Import DecimalString.
Import ListNotations.

Local Open Scope string_scope.
Local Open Scope Z_scope.

(** ** Exceptions and the error monad *)

Inductive exn : Type :=
| ValueError (msg : string)
| TypeError (msg : string)
| IndexError (msg : string)
| AssertionError (msg : string)
| AttributeError (msg : string).

Inductive result (A : Type) : Type :=
| Ok (a : A)
| Raise (e : exn).

Arguments Ok {A} a.
Arguments Raise {A} e.

Definition bind {A B : Type} (m : result A) (k : A -> result B) : result B :=
  match m with
  | Ok a => k a
  | Raise e => Raise e
  end.

Notation "x <- m ;; k" := (bind m (fun x => k))
  (at level 61, m at next level, right associativity).
Notation "' p <- m ;; k" := (bind m (fun x => match x with p => k end))
  (at level 61, p pattern, m at next level, right associativity).

Definition returns {A : Type} (m : result A) : bool :=
  match m with Ok _ => true | Raise _ => false end.

(** ** Python string operations used by the script *)

Module PyStr.

Definition TAB : ascii := ascii_of_nat 9.
Definition LF : ascii := ascii_of_nat 10.

(** [str.isspace] below 256: 9-13, 28-31, 32, and the two spaces 133 and
    160 above the ASCII range. *)
Definition is_space (c : ascii) : bool :=
  let n := nat_of_ascii c in
  ((9 <=? n) && (n <=? 13) || (28 <=? n) && (n <=? 32)
   || (n =? 133) || (n =? 160))%nat.

Fixpoint lstrip (s : string) : string :=
  match s with
  | EmptyString => EmptyString
  | String c s' => if is_space c then lstrip s' else s
  end.

Fixpoint rstrip (s : string) : string :=
  match s with
  | EmptyString => EmptyString
  | String c s' =>
      match rstrip s' with
      | EmptyString => if is_space c then EmptyString else String c EmptyString
      | t => String c t
      end
  end.

(** [s.strip()] *)
Definition strip (s : string) : string := rstrip (lstrip s).

(** [s.split(sep)] for a one-character separator: never the empty list. *)
Fixpoint split (sep : ascii) (s : string) : list string :=
  match s with
  | EmptyString => [EmptyString]
  | String c s' =>
      if Ascii.eqb c sep then EmptyString :: split sep s'
      else match split sep s' with
           | [] => [String c EmptyString]
           | w :: ws => String c w :: ws
           end
  end.

(** [sub in s]: [sub] occurs in [s] as a contiguous substring. *)
Fixpoint contains (sub s : string) : bool :=
  String.prefix sub s
  || match s with
     | EmptyString => false
     | String _ s' => contains sub s'
     end.

Definition is_digit (c : ascii) : bool :=
  let n := nat_of_ascii c in ((48 <=? n) && (n <=? 57))%nat.

Definition digit_val (c : ascii) : Z := Z.of_nat (nat_of_ascii c) - 48.

(** Decimal digits with single underscores allowed between digits. *)
Fixpoint digits (acc : Z) (after_digit : bool) (s : string) : option Z :=
  match s with
  | EmptyString => if after_digit then Some acc else None
  | String c s' =>
      if is_digit c then digits (10 * acc + digit_val c) true s'
      else if Ascii.eqb c "_"%char
           then (if after_digit then digits acc false s' else None)
           else None
  end.

Definition of_nat (n : nat) : string := NilEmpty.string_of_uint (Nat.to_uint n).

Definition APOSTROPHE : ascii := ascii_of_nat 39.
Definition DOUBLE_QUOTE : ascii := ascii_of_nat 34.
Definition BACKSLASH : ascii := ascii_of_nat 92.

Fixpoint occurs (c : ascii) (s : string) : bool :=
  match s with
  | EmptyString => false
  | String c' s' => Ascii.eqb c c' || occurs c s'
  end.

Definition hex_digit (n : nat) : ascii :=
  nth n (list_ascii_of_string "0123456789abcdef") "0"%char.

(** One character of [repr(s)] inside the quotes [quote]. *)
Definition escaped (quote c : ascii) : string :=
  let n := nat_of_ascii c in
  if Ascii.eqb c BACKSLASH || Ascii.eqb c quote
  then String BACKSLASH (String c EmptyString)
  else if (n =? 9)%nat then String BACKSLASH "t"
  else if (n =? 10)%nat then String BACKSLASH "n"
  else if (n =? 13)%nat then String BACKSLASH "r"
  else if ((n <? 32) || (n =? 127) || (128 <=? n) && (n <=? 160) || (n =? 173))%nat
  then String BACKSLASH
         (String "x" (String (hex_digit (n / 16)) (String (hex_digit (n mod 16))
                                                       EmptyString)))
  else String c EmptyString.

Fixpoint escape_all (quote : ascii) (s : string) : string :=
  match s with
  | EmptyString => EmptyString
  | String c s' => escaped quote c ++ escape_all quote s'
  end.

(** [repr(s)]: apostrophes around the text, double quotes when the text has
    an apostrophe and no double quote; backslash escapes for the quote, the
    backslash and the characters that are not printable. *)
Definition repr (s : string) : string :=
  let quote := if occurs APOSTROPHE s && negb (occurs DOUBLE_QUOTE s)
               then DOUBLE_QUOTE else APOSTROPHE in
  String quote (escape_all quote s) ++ String quote EmptyString.

(** White space for the integer parser: the C set 9-13 and 32. *)
Definition is_c_space (c : ascii) : bool :=
  let n := nat_of_ascii c in (((9 <=? n) && (n <=? 13)) || (n =? 32))%nat.

Fixpoint lstrip_c (s : string) : string :=
  match s with
  | EmptyString => EmptyString
  | String c s' => if is_c_space c then lstrip_c s' else s
  end.

Fixpoint rstrip_c (s : string) : string :=
  match s with
  | EmptyString => EmptyString
  | String c s' =>
      match rstrip_c s' with
      | EmptyString => if is_c_space c then EmptyString else String c EmptyString
      | t => String c t
      end
  end.

(** Before parsing, the spaces above the ASCII range (133 and 160) become
    an ASCII space; characters below 127 are left as they are. *)
Fixpoint spaces_to_ascii (s : string) : string :=
  match s with
  | EmptyString => EmptyString
  | String c s' =>
      let n := nat_of_ascii c in
      String (if ((n =? 133) || (n =? 160))%nat then " "%char else c)
             (spaces_to_ascii s')
  end.

Fixpoint count_digits (s : string) : nat :=
  match s with
  | EmptyString => O
  | String c s' => ((if is_digit c then 1 else 0) + count_digits s')%nat
  end.

Definition max_str_digits : nat := 4300.

(** [int(s)] in base 10: white space around, an optional sign, then digits
    with single underscores between them; a literal of more than 4300 digits
    is refused.  The message of a syntax error shows the first 200
    characters of [repr(s)]. *)
Definition int (s : string) : result Z :=
  let t := rstrip_c (lstrip_c (spaces_to_ascii s)) in
  let '(negative, body) :=
    match t with
    | String "+"%char r => (false, r)
    | String "-"%char r => (true, r)
    | _ => (false, t)
    end in
  match digits 0 false body with
  | None =>
      Raise (ValueError ("invalid literal for int() with base 10: "
                         ++ substring 0 200 (repr s)))
  | Some z =>
      if (max_str_digits <? count_digits body)%nat
      then Raise (ValueError
                    ("Exceeds the limit (4300 digits) for integer string conversion: value has "
                     ++ of_nat (count_digits body)
                     ++ " digits; use sys.set_int_max_str_digits() to increase the limit"))
      else Ok (if negative then - z else z)
  end.

(** Joining fields with tabs, to write BED lines in examples. *)
Fixpoint join_tab (fields : list string) : string :=
  match fields with
  | [] => EmptyString
  | [w] => w
  | w :: ws => w ++ String TAB (join_tab ws)
  end.

End PyStr.

(** ** BedLookup: [parse_bed_file] *)

Definition bed_fields : Type := (string * string * string * string)%type.

Definition unpack_error (got : nat) : exn :=
  ValueError ("not enough values to unpack (expected 4, got " ++ PyStr.of_nat got ++ ")").

Definition not_found_error (amplicon_name : string) : exn :=
  ValueError ("Amplicon '" ++ amplicon_name ++ "' not found in the BED file.").

(** [a, b, c, d = l]: unpacking a list into four targets. *)
Definition unpack4 (l : list string) : result bed_fields :=
  match l with
  | [a; b; c; d] => Ok (a, b, c, d)
  | _ =>
      if (List.length l <? 4)%nat
      then Raise (unpack_error (List.length l))
      else Raise (ValueError "too many values to unpack (expected 4)")
  end.

(** Line 34: [line.strip().split('\t')[0:3]], then unpacked into
    [chrom, start, end, name]. *)
Definition line_fields (line : string) : result bed_fields :=
  unpack4 (firstn 3 (PyStr.split PyStr.TAB (PyStr.strip line))).

(** The three locals of the scan, [None] until captured. *)
Record scan_state : Type := mkScan {
  ref : option string;
  amplicon_start : option Z;
  amplicon_end : option Z
}.

Definition scan_init : scan_state := mkScan None None None.

Definition all_captured (st : scan_state) : bool :=
  match ref st, amplicon_start st, amplicon_end st with
  | Some _, Some _, Some _ => true
  | _, _, _ => false
  end.

Inductive control : Type := Continue | Break.

Definition is_forward (amplicon_name fwd_primer name : string) : bool :=
  PyStr.contains amplicon_name name && PyStr.contains fwd_primer name.

Definition is_reverse (amplicon_name rev_primer name : string) : bool :=
  PyStr.contains amplicon_name name && PyStr.contains rev_primer name.

(** Lines 35-42: the loop body after the unpacking. *)
Definition bed_body (amplicon_name fwd_primer rev_primer : string)
    (st : scan_state) (fields : bed_fields) : result (control * scan_state) :=
  let '(chrom, start, end_, name) := fields in
  if is_forward amplicon_name fwd_primer name then
    s <- PyStr.int start ;;
    Ok (Continue, mkScan (Some chrom) (Some s) (amplicon_end st))
  else
    st' <- (if is_reverse amplicon_name rev_primer name
            then e <- PyStr.int end_ ;;
                 Ok (mkScan (ref st) (amplicon_start st) (Some e))
            else Ok st) ;;
    if all_captured st' then Ok (Break, st') else Ok (Continue, st').

(** The [for] loop, over items from which [fields_of] produces the four
    fields: [line_fields] for the lines of the file, [Ok] for records that
    are already unpacked. *)
Fixpoint bed_for {X : Type} (fields_of : X -> result bed_fields)
    (amplicon_name fwd_primer rev_primer : string)
    (items : list X) (st : scan_state) : result scan_state :=
  match items with
  | [] => Ok st
  | x :: rest =>
      fields <- fields_of x ;;
      ' (c, st') <- bed_body amplicon_name fwd_primer rev_primer st fields ;;
      match c with
      | Break => Ok st'
      | Continue => bed_for fields_of amplicon_name fwd_primer rev_primer rest st'
      end
  end.

(** Lines 44-47. *)
Definition bed_finish (amplicon_name : string) (st : scan_state)
  : result (string * Z * Z) :=
  match ref st, amplicon_start st, amplicon_end st with
  | Some c, Some s, Some e => Ok (c, s, e)
  | _, _, _ => Raise (not_found_error amplicon_name)
  end.

(** [parse_bed_file]; [bed] is the sequence of lines the opened file yields. *)
Definition parse_bed_file (bed : list string)
    (amplicon_name fwd_primer rev_primer : string) : result (string * Z * Z) :=
  st <- bed_for line_fields amplicon_name fwd_primer rev_primer bed scan_init ;;
  bed_finish amplicon_name st.

(** Lines 35-47 alone: the loop body and the final test run on records whose
    four fields are given.  This is not what [parse_bed_file] does with a
    line (line 34 comes first and raises); it shows what the lines that
    follow are written to return. *)
Definition scan_records (records : list bed_fields)
    (amplicon_name fwd_primer rev_primer : string) : result (string * Z * Z) :=
  st <- bed_for Ok amplicon_name fwd_primer rev_primer records scan_init ;;
  bed_finish amplicon_name st.

Definition bed_line (chrom start end_ name : string) : string :=
  PyStr.join_tab [chrom; start; end_; name] ++ String PyStr.LF EmptyString.

(** ** The alignment-file collaborator *)

(** Modelled from the spec: the header of an alignment file, the metadata
    structure describing the reference sequences.  The dictionary form lists
    the reference names with their lengths; [to_dict] and [from_dict] are the
    introspection and reconstruction of the collaborator's contract. *)
Definition header_dict : Type := list (string * Z).

Record AlignmentHeader : Type := mkHeader { to_dict : header_dict }.

Definition from_dict (d : header_dict) : AlignmentHeader := mkHeader d.

(** A read object of the alignment library ([pysam.AlignedSegment]), as the
    record of the attributes the script reads and assigns: mapped flag,
    reference start and end, query name, sequence, per-base quality, header.
    The quality array may be absent ([None]). *)
Record AlignedSegment : Type := mkRead {
  query_name : string;
  is_unmapped : bool;
  reference_start : Z;
  reference_end : Z;
  query_sequence : list ascii;
  query_qualities : option (list Z);
  header : AlignmentHeader
}.

(** Assignments, as the library documents them.  Assigning the sequence
    invalidates the quality array, which reads as [None] until it is assigned
    again; the quality array and the reference start are assigned as given;
    the reference end is computed by the library and is not writable. *)
Definition set_query_sequence (v : list ascii) (r : AlignedSegment) :=
  mkRead (query_name r) (is_unmapped r) (reference_start r) (reference_end r)
         v None (header r).

Definition set_query_qualities (v : option (list Z)) (r : AlignedSegment) :=
  mkRead (query_name r) (is_unmapped r) (reference_start r) (reference_end r)
         (query_sequence r) v (header r).

Definition set_reference_start (v : Z) (r : AlignedSegment) :=
  mkRead (query_name r) (is_unmapped r) v (reference_end r)
         (query_sequence r) (query_qualities r) (header r).

Definition not_writable_error : exn :=
  AttributeError
    "attribute 'reference_end' of 'pysam.libcalignedsegment.AlignedSegment' objects is not writable".

Definition set_reference_end (v : Z) (r : AlignedSegment) : result AlignedSegment :=
  Raise not_writable_error.

(** Modelled from the spec: an indexed alignment file opened for reading,
    with its reference names and the region query by contig and interval. *)
Record AlignmentFile : Type := mkBam {
  references : list string;
  fetch : string -> Z -> Z -> list AlignedSegment
}.

(** An alignment file opened for writing, once closed. *)
Record written_bam : Type := mkOut {
  out_path : string;
  out_header : AlignmentHeader;
  out_records : list AlignedSegment
}.

Definition none_subscript_error : exn :=
  TypeError "'NoneType' object is not subscriptable".

(** ** Python list slices *)

Module PySlice.

(** [l[k:]] *)
Definition from {A : Type} (k : Z) (l : list A) : list A :=
  if k <? 0 then skipn (Z.to_nat (Z.of_nat (List.length l) + k)) l
  else skipn (Z.to_nat k) l.

(** [l[:k]] *)
Definition upto {A : Type} (k : Z) (l : list A) : list A :=
  if k <? 0 then firstn (Z.to_nat (Z.of_nat (List.length l) + k)) l
  else firstn (Z.to_nat k) l.

(** Subscripting a value that may be [None]. *)
Definition subscript {A : Type} (o : option (list A)) (slice : list A -> list A)
  : result (list A) :=
  match o with
  | Some l => Ok (slice l)
  | None => Raise none_subscript_error
  end.

(** [l[0]] *)
Definition first {A : Type} (l : list A) : result A :=
  match l with
  | x :: _ => Ok x
  | [] => Raise (IndexError "list index out of range")
  end.

End PySlice.

(** ** ReadSelector: [extract_mapped_reads] *)

Definition fully_contained (read : AlignedSegment) (start end_ : Z) : bool :=
  (reference_start read >=? start) && (reference_end read <=? end_).

Definition overlaps_start (read : AlignedSegment) (start end_ : Z) : bool :=
  (reference_start read <=? start) && (reference_end read >=? start).

Definition overlaps_end (read : AlignedSegment) (start end_ : Z) : bool :=
  (reference_start read <=? end_) && (reference_end read >=? end_).

(** Lines 58-60: the disjunction of the three conditions. *)
Definition overlap_test (read : AlignedSegment) (start end_ : Z) : bool :=
  fully_contained read start end_
  || overlaps_start read start end_
  || overlaps_end read start end_.

(** Lines 56-65: the loop over the fetched reads. *)
Fixpoint extract_for (start end_ : Z) (fetched : list AlignedSegment)
    (mapped_reads : list AlignedSegment) : list AlignedSegment :=
  match fetched with
  | [] => mapped_reads
  | read :: rest =>
      if negb (is_unmapped read)
         && overlap_test read start end_
      then
        if negb (PyStr.contains "junction" (query_name read))
        then extract_for start end_ rest (mapped_reads ++ [read])
        else extract_for start end_ rest mapped_reads
      else extract_for start end_ rest mapped_reads
  end.

Definition extract_mapped_reads (bam : AlignmentFile) (chrom : string)
    (start end_ : Z) : result (list AlignedSegment) :=
  if existsb (String.eqb chrom) (references bam)
  then Ok (extract_for start end_ (fetch bam chrom start end_) [])
  else Raise (AssertionError ("Contig '" ++ chrom ++ "' not found in the BAM file.")).

(** ** Read objects in a store *)

Definition read_ref : Type := nat.

Definition store : Type := read_ref -> AlignedSegment.

Definition store_set (h : store) (a : read_ref) (r : AlignedSegment) : store :=
  fun b => if Nat.eqb b a then r else h b.

(** ** ReadTrimmer: [trim_mapped_reads] *)

(** Lines 74-78.  The subscript of line 77 reads the quality array after
    the assignment of line 76. *)
Definition clip_start (start : Z) (read : AlignedSegment) : result AlignedSegment :=
  if reference_start read <? start then
    let read1 :=
      set_query_sequence
        (PySlice.from (start - reference_start read) (query_sequence read)) read in
    q <- PySlice.subscript (query_qualities read1)
           (PySlice.from (start - reference_start read1)) ;;
    let read2 := set_query_qualities (Some q) read1 in
    Ok (set_reference_start start read2)
  else Ok read.

(** Lines 79-83.  The subscript of line 82 reads the quality array after
    the assignment of line 81; line 83 assigns the reference end. *)
Definition clip_end (end_ : Z) (read : AlignedSegment) : result AlignedSegment :=
  if reference_end read >? end_ then
    let read1 :=
      set_query_sequence
        (PySlice.upto (end_ - reference_start read) (query_sequence read)) read in
    q <- PySlice.subscript (query_qualities read1)
           (PySlice.upto (end_ - reference_start read1)) ;;
    let read2 := set_query_qualities (Some q) read1 in
    set_reference_end end_ read2
  else Ok read.

(** One pass of the loop body on the object a reference points to. *)
Definition trim_read (start end_ : Z) (read : AlignedSegment) : result AlignedSegment :=
  read' <- clip_start start read ;;
  clip_end end_ read'.

(** Lines 73-85.  An exception ends the run, so the objects as they are at
    a raise are not kept. *)
Fixpoint trim_for (start end_ : Z) (mapped_reads : list read_ref)
    (h : store) (trimmed_reads : list read_ref) : result (store * list read_ref) :=
  match mapped_reads with
  | [] => Ok (h, trimmed_reads)
  | a :: rest =>
      read' <- trim_read start end_ (h a) ;;
      trim_for start end_ rest (store_set h a read') (trimmed_reads ++ [a])
  end.

Definition trim_mapped_reads (h : store) (mapped_reads : list read_ref)
    (start end_ : Z) : result (store * list read_ref) :=
  trim_for start end_ mapped_reads h [].

(** ** BamWriter: [write_mapped_reads_to_bam] *)

Fixpoint write_for (h : store) (mapped_reads : list read_ref)
    (written : list AlignedSegment) : list AlignedSegment :=
  match mapped_reads with
  | [] => written
  | a :: rest => write_for h rest (written ++ [h a])
  end.

Definition write_mapped_reads_to_bam (h : store) (mapped_reads : list read_ref)
    (output_bam : string) : result written_bam :=
  read0 <- PySlice.first mapped_reads ;;
  let hdr := to_dict (header (h read0)) in
  let new_header := from_dict hdr in
  Ok (mkOut output_bam new_header (write_for h mapped_reads [])).

(** ** [main] *)

(** An address at which no read object was stored. *)
Definition unallocated : AlignedSegment :=
  mkRead EmptyString true 0 0 [] None (mkHeader []).

(** The objects of a list of reads, stored at the addresses 0, 1, ... in
    list order, and the list of their references. *)
Definition store_of (reads : list AlignedSegment) : store :=
  fun a => nth a reads unallocated.

Definition refs_of (reads : list AlignedSegment) : list read_ref :=
  seq 0 (List.length reads).

(** What a run finds outside the script: the resolution of paths
    ([os.path.realpath]), the lines of the text file at a path and the
    alignment file at a path. *)
Record environment : Type := mkEnv {
  realpath : string -> string;
  text_lines : string -> list string;
  alignment_file : string -> AlignmentFile
}.

(** Lines 97-117 take the five values of [parse_command_line_args]. *)
Definition arguments : Type := (string * string * string * string * string)%type.

(** Lines 108-117: what [main] does with the interval once it has it.  The
    result is the file written and the line printed. *)
Definition main_after_lookup (bam : AlignmentFile) (amplicon_name chrom : string)
    (start end_ : Z) : result (written_bam * string) :=
  extracted_reads <- extract_mapped_reads bam chrom start end_ ;;
  ' (h, trimmed_extracts) <-
      trim_mapped_reads (store_of extracted_reads) (refs_of extracted_reads)
        start end_ ;;
  let output_bam := amplicon_name ++ "_extracted_reads.bam" in
  out <- write_mapped_reads_to_bam h trimmed_extracts output_bam ;;
  Ok (out, "Extracted mapped reads written to " ++ output_bam).

Definition main (env : environment) (args : arguments)
  : result (written_bam * string) :=
  let '(bam_file, bed_file, amplicon_name, fwd_primer, rev_primer) := args in
  let bam_file := realpath env bam_file in
  let bed_file := realpath env bed_file in
  ' (chrom, start, end_) <-
      parse_bed_file (text_lines env bed_file) amplicon_name fwd_primer rev_primer ;;
  main_after_lookup (alignment_file env bam_file) amplicon_name chrom start end_.

(** * Predicates for the statements, and examples *)

(** The selection predicate in the words of the specification. *)
Definition selected (start end_ : Z) (read : AlignedSegment) : bool :=
  negb (is_unmapped read)
  && negb (PyStr.contains "junction" (query_name read))
  && overlap_test read start end_.

(** A read needs a clip when it begins before the start or ends after the end. *)
Definition needs_clip (start end_ : Z) (read : AlignedSegment) : bool :=
  (reference_start read <? start) || (reference_end read >? end_).

Module BedExamples.
Definition left_record : bed_fields := ("chr1", "100", "120", "AMP1_LEFT").
Definition left_alt_record : bed_fields := ("chr2", "200", "220", "AMP1_LEFT_alt").
Definition right_record : bed_fields := ("chr1", "380", "400", "AMP1_RIGHT").
Definition other_record : bed_fields := ("chr1", "500", "520", "AMP2_LEFT").
Definition both_record : bed_fields := ("chr1", "100", "120", "AMP1_LEFT_RIGHT").

Definition line_of (fields : bed_fields) : string :=
  let '(chrom, start, end_, name) := fields in bed_line chrom start end_ name.
End BedExamples.

Module ReadExamples.
Definition hdr : AlignmentHeader := mkHeader [("chr1", 29903)].
Definition bases (n : nat) : list ascii := repeat "A"%char n.
Definition quals (n : nat) : list Z := repeat 30 n.

(** Reads for the interval [10, 40]. *)
Definition spanning : AlignedSegment :=
  mkRead "read1" false 5 50 (bases 45) (Some (quals 45)) hdr.
Definition within : AlignedSegment :=
  mkRead "read2" false 12 30 (bases 18) (Some (quals 18)) hdr.
Definition no_quality : AlignedSegment :=
  mkRead "read3" false 5 50 (bases 45) None hdr.
Definition no_quality_within : AlignedSegment :=
  mkRead "read4" false 12 30 (bases 18) None hdr.
Definition junction_read : AlignedSegment :=
  mkRead "read5_junction_1" false 12 30 (bases 18) (Some (quals 18)) hdr.
Definition unmapped_read : AlignedSegment :=
  mkRead "read6" true 12 30 (bases 18) (Some (quals 18)) hdr.
Definition beyond : AlignedSegment :=
  mkRead "read7" false 60 80 (bases 20) (Some (quals 20)) hdr.

Definition bam : AlignmentFile :=
  mkBam ["chr1"]
        (fun _ _ _ => [spanning; junction_read; within; unmapped_read; beyond]).

Definition heap : store :=
  fun a => match a with
           | O => spanning
           | 1%nat => no_quality
           | 2%nat => within
           | _ => no_quality_within
           end.
End ReadExamples.

Module RunExamples.
Definition env : environment :=
  mkEnv (fun path => path)
        (fun _ => map BedExamples.line_of
                      [BedExamples.left_record; BedExamples.right_record])
        (fun _ => ReadExamples.bam).

Definition args : arguments :=
  ("reads.bam", "primers.bed", "AMP1", "_LEFT", "_RIGHT").

Definition empty_bam : AlignmentFile :=
  mkBam ["chr1"] (fun _ _ _ => [ReadExamples.junction_read; ReadExamples.beyond]).

(** An alignment file whose selected reads lie within [10, 40]. *)
Definition inside_bam : AlignmentFile :=
  mkBam ["chr1"]
        (fun _ _ _ => [ReadExamples.within; ReadExamples.junction_read;
                       ReadExamples.no_quality_within]).
End RunExamples.

(** * Properties *)

(** ** The unpacking at line 34 *)

(** ** The unpacking at line 34 *)

Lemma unpack4_short (l : list string) :
  (List.length l < 4)%nat -> unpack4 l = Raise (unpack_error (List.length l)).
Proof.
  intros Hlen.
  destruct l as [|a [|b [|c [|d [|e l]]]]]; simpl in *; try reflexivity; lia.
Qed.

Lemma split_length_pos (sep : ascii) (s : string) :
  (1 <= List.length (PyStr.split sep s))%nat.
Proof.
  induction s as [|c s IH]; simpl.
  - lia.
  - destruct (Ascii.eqb c sep); simpl; [lia|].
    destruct (PyStr.split sep s); simpl; lia.
Qed.

(** A slice [[0:3]] never has the four values the unpacking asks for. *)
Lemma line_fields_raises (line : string) :
  exists got, (1 <= got <= 3)%nat /\ line_fields line = Raise (unpack_error got).
Proof.
  unfold line_fields.
  set (l := PyStr.split PyStr.TAB (PyStr.strip line)).
  exists (List.length (firstn 3 l)).
  assert (Hpos : (1 <= List.length l)%nat) by apply split_length_pos.
  assert (Hlen : List.length (firstn 3 l) = Nat.min 3 (List.length l))
    by apply length_firstn.
  split; [lia|].
  apply unpack4_short. lia.
Qed.

(** On a file with at least one line the first iteration raises. *)
Lemma parse_bed_file_first_line (line : string) (rest : list string)
    (amplicon_name fwd_primer rev_primer : string) :
  exists got, (1 <= got <= 3)%nat /\
    parse_bed_file (line :: rest) amplicon_name fwd_primer rev_primer
    = Raise (unpack_error got).
Proof.
  destruct (line_fields_raises line) as (got & Hgot & Hraise).
  exists got. split; [exact Hgot|].
  unfold parse_bed_file. simpl. rewrite Hraise. reflexivity.
Qed.

Lemma parse_bed_file_empty (amplicon_name fwd_primer rev_primer : string) :
  parse_bed_file [] amplicon_name fwd_primer rev_primer
  = Raise (not_found_error amplicon_name).
Proof. reflexivity. Qed.

(** No BED file makes [parse_bed_file] return an interval. *)
Lemma parse_bed_file_never_returns (bed : list string)
    (amplicon_name fwd_primer rev_primer : string) :
  returns (parse_bed_file bed amplicon_name fwd_primer rev_primer) = false.
Proof.
  destruct bed as [|line rest].
  - reflexivity.
  - destruct (parse_bed_file_first_line line rest amplicon_name fwd_primer rev_primer)
      as (got & _ & ->).
    reflexivity.
Qed.

(** ** Lines 35-47 on records whose fields are given *)

Section Scan.
Variables amplicon_name fwd_primer rev_primer : string.

Local Notation "'body'" := (bed_body amplicon_name fwd_primer rev_primer).
Local Notation "'scan'" :=
  (bed_for (@Ok bed_fields) amplicon_name fwd_primer rev_primer).

Lemma body_other (st : scan_state) (chrom start end_ name : string) :
  is_forward amplicon_name fwd_primer name = false ->
  is_reverse amplicon_name rev_primer name = false ->
  body st (chrom, start, end_, name)
  = Ok (if all_captured st then Break else Continue, st).
Proof.
  intros Hf Hr. unfold bed_body. rewrite Hf, Hr. simpl.
  destruct (all_captured st); reflexivity.
Qed.

Lemma scan_cons (fields : bed_fields) (rest : list bed_fields) (st : scan_state) :
  scan (fields :: rest) st
  = ' (c, st') <- body st fields ;;
    match c with Break => Ok st' | Continue => scan rest st' end.
Proof. reflexivity. Qed.

(** When no record name contains the amplicon name nothing is captured. *)
Lemma scan_absent (records : list bed_fields) :
  Forall (fun fields => let '(_, _, _, name) := fields in
                        PyStr.contains amplicon_name name = false) records ->
  scan records scan_init = Ok scan_init.
Proof.
  intros Habs.
  induction Habs as [|[[[c0 s0] e0] n0] records Hname _ IH].
  - reflexivity.
  - rewrite scan_cons.
    rewrite body_other by (unfold is_forward, is_reverse; rewrite Hname; reflexivity).
    simpl. exact IH.
Qed.

End Scan.

(** The scan itself reports an absent amplicon as "not found". *)
Lemma scan_records_absent_not_found (records : list bed_fields)
    (amplicon_name fwd_primer rev_primer : string) :
  Forall (fun fields => let '(_, _, _, name) := fields in
                        PyStr.contains amplicon_name name = false) records ->
  scan_records records amplicon_name fwd_primer rev_primer
  = Raise (not_found_error amplicon_name).
Proof.
  intros Habs. unfold scan_records.
  rewrite (scan_absent amplicon_name fwd_primer rev_primer records Habs).
  reflexivity.
Qed.

(** ** BedLookup: the claims *)

(** C1, at a BED file with one forward-primer and one reverse-primer record
    for the amplicon: the names qualify and the scan over the four fields of
    each record yields (chr1, 100, 400), but [parse_bed_file] raises at the
    unpacking of the first line, because the slice keeps three fields for
    four targets. *)
Theorem parse_bed_file_two_primers_raises :
  let bed := map BedExamples.line_of [BedExamples.left_record; BedExamples.right_record] in
  is_forward "AMP1" "_LEFT" "AMP1_LEFT" = true /\
  is_reverse "AMP1" "_RIGHT" "AMP1_RIGHT" = true /\
  PyStr.split PyStr.TAB (PyStr.strip (BedExamples.line_of BedExamples.left_record))
  = ["chr1"; "100"; "120"; "AMP1_LEFT"] /\
  scan_records [BedExamples.left_record; BedExamples.right_record]
    "AMP1" "_LEFT" "_RIGHT" = Ok ("chr1", 100, 400) /\
  parse_bed_file bed "AMP1" "_LEFT" "_RIGHT" = Raise (unpack_error 3).
Proof. repeat split; reflexivity. Qed.

(** C2, at a BED file with two forward-primer records for the amplicon
    followed by its reverse-primer record: both names qualify as forward, but
    no reference or start is taken from either record, because
    [parse_bed_file] raises at the unpacking of the first line and returns
    no interval. *)
Theorem parse_bed_file_two_forward_records_raises :
  let bed := map BedExamples.line_of
               [BedExamples.left_record; BedExamples.left_alt_record;
                BedExamples.right_record] in
  is_forward "AMP1" "_LEFT" "AMP1_LEFT" = true /\
  is_forward "AMP1" "_LEFT" "AMP1_LEFT_alt" = true /\
  line_fields (BedExamples.line_of BedExamples.left_record) = Raise (unpack_error 3) /\
  parse_bed_file bed "AMP1" "_LEFT" "_RIGHT" = Raise (unpack_error 3) /\
  returns (parse_bed_file bed "AMP1" "_LEFT" "_RIGHT") = false.
Proof. repeat split; reflexivity. Qed.

(** C6, at a BED file whose only record is named for another amplicon: the
    scan over the unpacked record reports "not found" naming the amplicon,
    but [parse_bed_file] raises the unpacking error of line 34 instead. *)
Theorem parse_bed_file_absent_amplicon_raises_unpack :
  let bed := [BedExamples.line_of BedExamples.other_record] in
  PyStr.contains "AMP1" "AMP2_LEFT" = false /\
  scan_records [BedExamples.other_record] "AMP1" "_LEFT" "_RIGHT"
  = Raise (not_found_error "AMP1") /\
  parse_bed_file bed "AMP1" "_LEFT" "_RIGHT" = Raise (unpack_error 3) /\
  parse_bed_file bed "AMP1" "_LEFT" "_RIGHT" <> Raise (not_found_error "AMP1").
Proof.
  cbv zeta. repeat split; try reflexivity.
  vm_compute. discriminate.
Qed.

(** C9, at a BED file whose only record is named with the amplicon name and
    both suffixes: the name qualifies for the forward and for the reverse
    test, but the record is never classified and no bound is set, because
    [parse_bed_file] raises at the unpacking of the line, before line 35. *)
Theorem parse_bed_file_both_suffixes_raises :
  let bed := [BedExamples.line_of BedExamples.both_record] in
  is_forward "AMP1" "_LEFT" "AMP1_LEFT_RIGHT" = true /\
  is_reverse "AMP1" "_RIGHT" "AMP1_LEFT_RIGHT" = true /\
  line_fields (BedExamples.line_of BedExamples.both_record) = Raise (unpack_error 3) /\
  parse_bed_file bed "AMP1" "_LEFT" "_RIGHT" = Raise (unpack_error 3) /\
  returns (parse_bed_file bed "AMP1" "_LEFT" "_RIGHT") = false.
Proof. repeat split; reflexivity. Qed.

(** ** ReadSelector: the claims *)

(** ** ReadSelector: the claims *)

Lemma fully_contained_iff (read : AlignedSegment) (start end_ : Z) :
  fully_contained read start end_ = true
  <-> start <= reference_start read /\ reference_end read <= end_.
Proof. unfold fully_contained. rewrite andb_true_iff. lia. Qed.

Lemma overlaps_start_iff (read : AlignedSegment) (start end_ : Z) :
  overlaps_start read start end_ = true
  <-> reference_start read <= start /\ start <= reference_end read.
Proof. unfold overlaps_start. rewrite andb_true_iff. lia. Qed.

Lemma overlaps_end_iff (read : AlignedSegment) (start end_ : Z) :
  overlaps_end read start end_ = true
  <-> reference_start read <= end_ /\ end_ <= reference_end read.
Proof. unfold overlaps_end. rewrite andb_true_iff. lia. Qed.

Lemma overlap_test_iff (read : AlignedSegment) (start end_ : Z) :
  overlap_test read start end_ = true
  <-> (start <= reference_start read /\ reference_end read <= end_)
      \/ (reference_start read <= start /\ start <= reference_end read)
      \/ (reference_start read <= end_ /\ end_ <= reference_end read).
Proof.
  unfold overlap_test. rewrite !orb_true_iff.
  rewrite fully_contained_iff, overlaps_start_iff, overlaps_end_iff. tauto.
Qed.

Lemma selected_iff (start end_ : Z) (read : AlignedSegment) :
  selected start end_ read = true
  <-> is_unmapped read = false
      /\ PyStr.contains "junction" (query_name read) = false
      /\ overlap_test read start end_ = true.
Proof.
  unfold selected.
  rewrite !andb_true_iff, !negb_true_iff. tauto.
Qed.

(** The loop appends the selected reads to the accumulator, in order. *)
Lemma extract_for_filter (start end_ : Z) (fetched acc : list AlignedSegment) :
  extract_for start end_ fetched acc
  = (acc ++ filter (selected start end_) fetched)%list.
Proof.
  revert acc. induction fetched as [|read rest IH]; intros acc; simpl.
  - symmetry. apply app_nil_r.
  - unfold selected.
    destruct (is_unmapped read); simpl.
    + apply IH.
    + destruct (overlap_test read start end_); simpl.
      * destruct (PyStr.contains "junction" (query_name read)); simpl.
        -- apply IH.
        -- rewrite IH, <- app_assoc. reflexivity.
      * rewrite andb_false_r. apply IH.
Qed.

Lemma known_contig (chrom : string) (names : list string) :
  In chrom names -> existsb (String.eqb chrom) names = true.
Proof.
  intros Hin. apply existsb_exists. exists chrom.
  split; [exact Hin | apply String.eqb_refl].
Qed.

(** C3: on a known contig [extract_mapped_reads] returns the fetched reads
    that are mapped, are not named "junction" and pass one of the three
    overlap conditions, in fetch order; a mapped read without "junction" in
    its name that lies inside the interval is kept, and a read that lies
    wholly before the start or wholly after the end is not. *)
Theorem extract_mapped_reads_selects (bam : AlignmentFile) (chrom : string)
    (start end_ : Z) :
  In chrom (references bam) ->
  exists kept,
    extract_mapped_reads bam chrom start end_ = Ok kept
    /\ kept = filter (selected start end_) (fetch bam chrom start end_)
    /\ (forall read,
          In read kept <->
          In read (fetch bam chrom start end_)
          /\ is_unmapped read = false
          /\ PyStr.contains "junction" (query_name read) = false
          /\ ((start <= reference_start read /\ reference_end read <= end_)
              \/ (reference_start read <= start /\ start <= reference_end read)
              \/ (reference_start read <= end_ /\ end_ <= reference_end read)))
    /\ (forall read,
          In read (fetch bam chrom start end_) ->
          is_unmapped read = false ->
          PyStr.contains "junction" (query_name read) = false ->
          start <= reference_start read -> reference_end read <= end_ ->
          In read kept)
    /\ (forall read,
          reference_start read <= reference_end read -> start < end_ ->
          reference_end read < start \/ end_ < reference_start read ->
          ~ In read kept).
Proof.
  intros Hchrom.
  exists (filter (selected start end_) (fetch bam chrom start end_)).
  assert (Hiff : forall read,
            In read (filter (selected start end_) (fetch bam chrom start end_)) <->
            In read (fetch bam chrom start end_)
            /\ is_unmapped read = false
            /\ PyStr.contains "junction" (query_name read) = false
            /\ ((start <= reference_start read /\ reference_end read <= end_)
                \/ (reference_start read <= start /\ start <= reference_end read)
                \/ (reference_start read <= end_ /\ end_ <= reference_end read))).
  { intros read. rewrite filter_In, selected_iff, overlap_test_iff. tauto. }
  split; [|split; [reflexivity|split; [exact Hiff|split]]].
  - unfold extract_mapped_reads.
    rewrite (known_contig _ _ Hchrom), extract_for_filter. reflexivity.
  - intros read Hin Hmapped Hname Hs He. apply Hiff. tauto.
  - intros read Hread Hint Hout Hin. apply Hiff in Hin. lia.
Qed.

Lemma extract_mapped_reads_selects_witness :
  In "chr1" (references ReadExamples.bam)
  /\ exists kept,
       extract_mapped_reads ReadExamples.bam "chr1" 10 40 = Ok kept
       /\ kept = filter (selected 10 40) (fetch ReadExamples.bam "chr1" 10 40).
Proof.
  assert (H : In "chr1" (references ReadExamples.bam)) by (left; reflexivity).
  split; [exact H|].
  destruct (extract_mapped_reads_selects ReadExamples.bam "chr1" 10 40 H)
    as (kept & Hok & Hkept & _).
  exists kept. split; assumption.
Defined.

Example extract_mapped_reads_example :
  extract_mapped_reads ReadExamples.bam "chr1" 10 40
  = Ok [ReadExamples.spanning; ReadExamples.within]
  /\ extract_mapped_reads ReadExamples.bam "chr2" 10 40
     = Raise (AssertionError "Contig 'chr2' not found in the BAM file.").
Proof. split; reflexivity. Qed.

(** C5: for a read with start <= end and an interval with start < end, the
    three conditions together say exactly that the read and the interval
    overlap or touch; a read that begins before the interval and ends after
    it passes the second and third conditions and not the first. *)
Theorem overlap_test_is_interval_overlap (read : AlignedSegment) (start end_ : Z) :
  reference_start read <= reference_end read ->
  start < end_ ->
  (overlap_test read start end_ = true
   <-> reference_start read <= end_ /\ reference_end read >= start)
  /\ (reference_start read < start -> reference_end read > end_ ->
      overlaps_start read start end_ = true
      /\ overlaps_end read start end_ = true
      /\ fully_contained read start end_ = false).
Proof.
  intros Hread Hint. split.
  - rewrite overlap_test_iff. lia.
  - intros Hs He. repeat split.
    + apply overlaps_start_iff. lia.
    + apply overlaps_end_iff. lia.
    + destruct (fully_contained read start end_) eqn:Hc; [|reflexivity].
      apply fully_contained_iff in Hc. lia.
Qed.

Lemma overlap_test_is_interval_overlap_witness :
  reference_start ReadExamples.spanning <= reference_end ReadExamples.spanning
  /\ 10 < 40
  /\ (overlap_test ReadExamples.spanning 10 40 = true
      <-> reference_start ReadExamples.spanning <= 40
          /\ reference_end ReadExamples.spanning >= 10).
Proof.
  assert (Hread : reference_start ReadExamples.spanning
                  <= reference_end ReadExamples.spanning) by (simpl; lia).
  assert (Hint : 10 < 40) by lia.
  split; [exact Hread|]. split; [exact Hint|].
  exact (proj1 (overlap_test_is_interval_overlap ReadExamples.spanning 10 40 Hread Hint)).
Defined.

(** ** ReadTrimmer: the claims *)

Lemma trim_read_no_clip (start end_ : Z) (read : AlignedSegment) :
  needs_clip start end_ read = false ->
  trim_read start end_ read = Ok read.
Proof.
  unfold needs_clip. rewrite orb_false_iff. intros [Hs He].
  unfold trim_read, clip_start. rewrite Hs. simpl.
  unfold clip_end. rewrite He. reflexivity.
Qed.

Lemma needs_clip_false_iff (start end_ : Z) (read : AlignedSegment) :
  needs_clip start end_ read = false
  <-> start <= reference_start read /\ reference_end read <= end_.
Proof.
  unfold needs_clip. rewrite orb_false_iff, Z.gtb_ltb, !Z.ltb_ge. tauto.
Qed.

Lemma needs_clip_true_iff (start end_ : Z) (read : AlignedSegment) :
  needs_clip start end_ read = true
  <-> reference_start read < start \/ reference_end read > end_.
Proof.
  unfold needs_clip. rewrite orb_true_iff, Z.gtb_ltb, !Z.ltb_lt. lia.
Qed.

(** The assignment of line 76 or 81 leaves the read without quality array,
    so the subscript of the line that follows raises, whether the read had
    quality values or not. *)
Lemma trim_read_clip (start end_ : Z) (read : AlignedSegment) :
  needs_clip start end_ read = true ->
  trim_read start end_ read = Raise none_subscript_error.
Proof.
  destruct read as [name unm rs re seq quals hdr].
  unfold needs_clip, trim_read, clip_start, clip_end. simpl.
  destruct (rs <? start); simpl; [reflexivity|].
  intros He. rewrite He. reflexivity.
Qed.

Lemma store_set_same (h : store) (a : read_ref) (r : AlignedSegment) :
  store_set h a r a = r.
Proof. unfold store_set. rewrite Nat.eqb_refl. reflexivity. Qed.

Lemma store_set_other (h : store) (a b : read_ref) (r : AlignedSegment) :
  b <> a -> store_set h a r b = h b.
Proof.
  intros Hne. unfold store_set. destruct (Nat.eqb b a) eqn:E; [|reflexivity].
  apply Nat.eqb_eq in E. contradiction.
Qed.

Lemma store_set_self (h : store) (a b : read_ref) : store_set h a (h a) b = h b.
Proof.
  unfold store_set. destruct (Nat.eqb b a) eqn:E; [|reflexivity].
  apply Nat.eqb_eq in E. subst b. reflexivity.
Qed.

(** What the loop returns is the accumulator followed by its input. *)
Lemma trim_for_returns_refs (start end_ : Z) (mapped_reads : list read_ref) :
  forall (h : store) (acc : list read_ref) (h' : store) (out : list read_ref),
    trim_for start end_ mapped_reads h acc = Ok (h', out) ->
    out = (acc ++ mapped_reads)%list.
Proof.
  induction mapped_reads as [|a rest IH]; intros h acc h' out Hok; simpl in Hok.
  - inversion Hok. symmetry. apply app_nil_r.
  - destruct (trim_read start end_ (h a)) as [read'|e]; simpl in Hok; [|discriminate].
    apply IH in Hok. rewrite Hok, <- app_assoc. reflexivity.
Qed.

Lemma trim_for_no_clip (start end_ : Z) (mapped_reads : list read_ref) :
  forall (h : store) (acc : list read_ref),
    (forall a, In a mapped_reads -> needs_clip start end_ (h a) = false) ->
    exists h',
      trim_for start end_ mapped_reads h acc = Ok (h', (acc ++ mapped_reads)%list)
      /\ forall b, h' b = h b.
Proof.
  induction mapped_reads as [|a rest IH]; intros h acc Hall; simpl.
  - exists h. rewrite app_nil_r. split; reflexivity.
  - rewrite (trim_read_no_clip start end_ (h a) (Hall a (or_introl eq_refl))).
    simpl.
    destruct (IH (store_set h a (h a)) (acc ++ [a])%list) as (h' & Hok & Hsame).
    + intros b Hb. rewrite store_set_self. apply Hall. right. exact Hb.
    + exists h'. split.
      * rewrite Hok, <- app_assoc. reflexivity.
      * intros b. rewrite Hsame. apply store_set_self.
Qed.

Lemma trim_for_raises (start end_ : Z) (mapped_reads : list read_ref) (a : read_ref) :
  forall (h : store) (acc : list read_ref),
    In a mapped_reads ->
    needs_clip start end_ (h a) = true ->
    trim_for start end_ mapped_reads h acc = Raise none_subscript_error.
Proof.
  induction mapped_reads as [|b rest IH]; intros h acc Hin Hclip; simpl.
  - destruct Hin.
  - destruct (needs_clip start end_ (h b)) eqn:Hb.
    + rewrite (trim_read_clip start end_ (h b) Hb). reflexivity.
    + rewrite (trim_read_no_clip start end_ (h b) Hb). simpl.
      apply IH.
      * destruct Hin as [Heq|Hin]; [|exact Hin].
        subst b. rewrite Hb in Hclip. discriminate.
      * rewrite store_set_self. exact Hclip.
Qed.

(** A call that returns has found no read to clip and has changed none. *)
Lemma trim_for_effect (start end_ : Z) (mapped_reads : list read_ref)
    (h : store) (acc : list read_ref) (h' : store) (out : list read_ref) :
  trim_for start end_ mapped_reads h acc = Ok (h', out) ->
  (forall a, In a mapped_reads -> needs_clip start end_ (h a) = false)
  /\ (forall b, h' b = h b).
Proof.
  intros Hok.
  assert (Hall : forall a, In a mapped_reads -> needs_clip start end_ (h a) = false).
  { intros a Ha. destruct (needs_clip start end_ (h a)) eqn:Hc; [|reflexivity].
    rewrite (trim_for_raises start end_ mapped_reads a h acc Ha Hc) in Hok.
    discriminate. }
  split; [exact Hall|].
  destruct (trim_for_no_clip start end_ mapped_reads h acc Hall) as (h'' & Hok' & Hsame).
  rewrite Hok in Hok'. inversion Hok'; subst. exact Hsame.
Qed.

(** C4, at a read with start 5, end 50, 45 bases and 45 quality values,
    trimmed to the interval [10, 40]: line 76 assigns the sequence without
    its first 5 bases, which leaves the read without quality array, and line
    77 raises on subscripting it.  The read does not come out with start 10,
    end 40 and 30 bases: [trim_mapped_reads] returns nothing. *)
Theorem trim_spanning_read_raises :
  reference_start ReadExamples.spanning = 5 /\
  reference_end ReadExamples.spanning = 50 /\
  query_qualities ReadExamples.spanning = Some (ReadExamples.quals 45) /\
  query_qualities
    (set_query_sequence
       (PySlice.from (10 - reference_start ReadExamples.spanning)
          (query_sequence ReadExamples.spanning))
       ReadExamples.spanning) = None /\
  clip_start 10 ReadExamples.spanning = Raise none_subscript_error /\
  trim_read 10 40 ReadExamples.spanning = Raise none_subscript_error /\
  trim_mapped_reads ReadExamples.heap [0%nat] 10 40 = Raise none_subscript_error.
Proof. repeat split; reflexivity. Qed.

Example trim_read_example :
  trim_read 10 40 ReadExamples.within = Ok ReadExamples.within
  /\ trim_read 10 40 ReadExamples.no_quality_within = Ok ReadExamples.no_quality_within
  /\ trim_read 10 40 ReadExamples.beyond = Raise none_subscript_error.
Proof. repeat split; reflexivity. Qed.

(** C7: when a read of the list has no quality array and begins before the
    start or ends after the end, [trim_mapped_reads] raises the error of
    subscripting [None] and returns no list. *)
Theorem absent_quality_clip_raises (h : store) (mapped_reads : list read_ref)
    (start end_ : Z) (a : read_ref) :
  In a mapped_reads ->
  query_qualities (h a) = None ->
  reference_start (h a) < start \/ reference_end (h a) > end_ ->
  trim_mapped_reads h mapped_reads start end_ = Raise none_subscript_error
  /\ returns (trim_mapped_reads h mapped_reads start end_) = false.
Proof.
  intros Hin Hq Hclip.
  assert (Hneeds : needs_clip start end_ (h a) = true)
    by (apply needs_clip_true_iff; exact Hclip).
  assert (Hraise : trim_mapped_reads h mapped_reads start end_
                   = Raise none_subscript_error).
  { unfold trim_mapped_reads.
    apply (trim_for_raises start end_ mapped_reads a); assumption. }
  split; [exact Hraise | rewrite Hraise; reflexivity].
Qed.

Lemma absent_quality_clip_raises_witness :
  trim_mapped_reads ReadExamples.heap [0%nat; 2%nat; 1%nat] 10 40
  = Raise none_subscript_error.
Proof.
  apply (absent_quality_clip_raises ReadExamples.heap [0%nat; 2%nat; 1%nat]
           10 40 1%nat).
  - right. right. left. reflexivity.
  - reflexivity.
  - left. simpl. lia.
Defined.




(** ** BamWriter: the claims *)

(** ** BamWriter: the claims *)

Lemma write_for_map (h : store) (mapped_reads : list read_ref)
    (written : list AlignedSegment) :
  write_for h mapped_reads written = (written ++ map h mapped_reads)%list.
Proof.
  revert written. induction mapped_reads as [|a rest IH]; intros written; simpl.
  - symmetry. apply app_nil_r.
  - rewrite IH, <- app_assoc. reflexivity.
Qed.

(** C8 fails as stated: on the empty list the writer raises the error of
    taking element 0 of an empty list; there is no check before it. *)
Lemma write_empty_list_raises_index_error :
  write_mapped_reads_to_bam ReadExamples.heap [] "AMP1_extracted_reads.bam"
  = Raise (IndexError "list index out of range")
  /\ PySlice.first (A := read_ref) [] = Raise (IndexError "list index out of range").
Proof. split; reflexivity. Qed.

(** C8, amended: on the empty list [write_mapped_reads_to_bam] raises the
    index error of [mapped_reads[0]]; on a list of N > 0 reads it writes
    exactly those N reads, in order, under a header rebuilt from the
    dictionary of the first read's header. *)
Theorem write_mapped_reads_to_bam_spec (h : store) (output_bam : string) :
  write_mapped_reads_to_bam h [] output_bam
  = Raise (IndexError "list index out of range")
  /\ (forall (a : read_ref) (rest : list read_ref),
        exists out,
          write_mapped_reads_to_bam h (a :: rest) output_bam = Ok out
          /\ out_path out = output_bam
          /\ out_header out = from_dict (to_dict (header (h a)))
          /\ out_header out = header (h a)
          /\ out_records out = map h (a :: rest)
          /\ List.length (out_records out) = List.length (a :: rest)).
Proof.
  split; [reflexivity|].
  intros a rest. eexists. split; [reflexivity|].
  simpl. rewrite write_for_map. simpl.
  repeat split.
  - destruct (header (h a)). reflexivity.
  - rewrite length_map. reflexivity.
Qed.

(** * Further properties of the script *)

(** ** [parse_bed_file] and [main] *)

(** X1: whatever the amplicon and the suffixes, [parse_bed_file] raises: the
    "not found" error on a file without lines, and on any other file the
    unpacking error of its first line, with one to three values got. *)
Theorem parse_bed_file_outcome (bed : list string)
    (amplicon_name fwd_primer rev_primer : string) :
  match bed with
  | [] =>
      parse_bed_file bed amplicon_name fwd_primer rev_primer
      = Raise (not_found_error amplicon_name)
  | _ :: _ =>
      exists got, (1 <= got <= 3)%nat /\
        parse_bed_file bed amplicon_name fwd_primer rev_primer
        = Raise (unpack_error got)
  end.
Proof.
  destruct bed as [|line rest].
  - reflexivity.
  - apply parse_bed_file_first_line.
Qed.

(** X2: [main] never gets past the BED lookup: it raises the [ValueError] of
    [parse_bed_file], whatever the alignment file holds, and writes nothing. *)
Theorem main_raises_in_lookup (env : environment)
    (bam_file bed_file amplicon_name fwd_primer rev_primer : string) :
  exists msg,
    parse_bed_file (text_lines env (realpath env bed_file))
      amplicon_name fwd_primer rev_primer = Raise (ValueError msg)
    /\ main env (bam_file, bed_file, amplicon_name, fwd_primer, rev_primer)
       = Raise (ValueError msg).
Proof.
  unfold main.
  destruct (text_lines env (realpath env bed_file)) as [|line rest].
  - eexists. rewrite parse_bed_file_empty. split; reflexivity.
  - destruct (parse_bed_file_first_line line rest amplicon_name fwd_primer rev_primer)
      as (got & _ & Hraise).
    eexists. rewrite Hraise. split; reflexivity.
Qed.

(** ** [extract_mapped_reads] at its edges *)

(** X4: on a contig the alignment file does not list, the assertion of line
    53 fails, whatever the region query would yield. *)
Theorem extract_mapped_reads_unknown_contig (bam : AlignmentFile) (chrom : string)
    (start end_ : Z) :
  ~ In chrom (references bam) ->
  extract_mapped_reads bam chrom start end_
  = Raise (AssertionError ("Contig '" ++ chrom ++ "' not found in the BAM file.")).
Proof.
  intros Hnot. unfold extract_mapped_reads.
  destruct (existsb (String.eqb chrom) (references bam)) eqn:Hex; [|reflexivity].
  exfalso. apply Hnot.
  apply existsb_exists in Hex. destruct Hex as (name & Hin & Heq).
  apply String.eqb_eq in Heq. subst name. exact Hin.
Qed.

Lemma extract_mapped_reads_unknown_contig_witness :
  extract_mapped_reads ReadExamples.bam "MN908947.3" 10 40
  = Raise (AssertionError "Contig 'MN908947.3' not found in the BAM file.").
Proof.
  apply (extract_mapped_reads_unknown_contig ReadExamples.bam "MN908947.3" 10 40).
  simpl. intros [H|[]]. discriminate H.
Defined.

(** X5: a read the region query yields for what it is asked, one that
    overlaps [start, end), always passes the three overlap conditions; so
    such a read is kept exactly when it is mapped and its name does not
    contain "junction". *)
Theorem fetched_overlapping_read_is_kept (bam : AlignmentFile) (chrom : string)
    (start end_ : Z) (read : AlignedSegment) :
  In chrom (references bam) ->
  In read (fetch bam chrom start end_) ->
  reference_start read < end_ ->
  start < reference_end read ->
  overlap_test read start end_ = true
  /\ exists kept,
       extract_mapped_reads bam chrom start end_ = Ok kept
       /\ (In read kept
           <-> is_unmapped read = false
               /\ PyStr.contains "junction" (query_name read) = false).
Proof.
  intros Hchrom Hin Hs He.
  assert (Hover : overlap_test read start end_ = true)
    by (apply overlap_test_iff; lia).
  split; [exact Hover|].
  exists (filter (selected start end_) (fetch bam chrom start end_)). split.
  - unfold extract_mapped_reads.
    rewrite (known_contig _ _ Hchrom), extract_for_filter. reflexivity.
  - rewrite filter_In, selected_iff. tauto.
Qed.

Lemma fetched_overlapping_read_is_kept_witness :
  overlap_test ReadExamples.spanning 10 40 = true
  /\ exists kept,
       extract_mapped_reads ReadExamples.bam "chr1" 10 40 = Ok kept
       /\ (In ReadExamples.spanning kept
           <-> is_unmapped ReadExamples.spanning = false
               /\ PyStr.contains "junction" (query_name ReadExamples.spanning) = false).
Proof.
  apply (fetched_overlapping_read_is_kept ReadExamples.bam "chr1" 10 40
           ReadExamples.spanning).
  - left. reflexivity.
  - left. reflexivity.
  - simpl. lia.
  - simpl. lia.
Defined.

(** ** [trim_mapped_reads]: when it returns and when it raises *)

(** X6: one pass of the loop body over a read either leaves it as it is,
    when it begins at or after the start and ends at or before the end, or
    raises the error of subscripting [None], when it needs a clip, whether or
    not the read had a quality array. *)
Theorem trim_read_outcome (start end_ : Z) (read : AlignedSegment) :
  trim_read start end_ read
  = if (reference_start read <? start) || (reference_end read >? end_)
    then Raise none_subscript_error
    else Ok read.
Proof.
  fold (needs_clip start end_ read).
  destruct (needs_clip start end_ read) eqn:Hc.
  - apply trim_read_clip. exact Hc.
  - apply trim_read_no_clip. exact Hc.
Qed.

(** X7: when a read of the list begins before the start or ends after the
    end, [trim_mapped_reads] raises the error of subscripting [None] and
    returns no list, also when that read has its quality array. *)
Theorem trim_mapped_reads_raises_on_clip (h : store) (mapped_reads : list read_ref)
    (start end_ : Z) (a : read_ref) :
  In a mapped_reads ->
  reference_start (h a) < start \/ reference_end (h a) > end_ ->
  trim_mapped_reads h mapped_reads start end_ = Raise none_subscript_error.
Proof.
  intros Hin Hclip. unfold trim_mapped_reads.
  apply (trim_for_raises start end_ mapped_reads a); [exact Hin|].
  apply needs_clip_true_iff. exact Hclip.
Qed.

Lemma trim_mapped_reads_raises_on_clip_witness :
  query_qualities (ReadExamples.heap 0%nat) = Some (ReadExamples.quals 45)
  /\ trim_mapped_reads ReadExamples.heap [2%nat; 0%nat] 10 40
     = Raise none_subscript_error.
Proof.
  split; [reflexivity|].
  apply (trim_mapped_reads_raises_on_clip ReadExamples.heap [2%nat; 0%nat] 10 40 0%nat).
  - right. left. reflexivity.
  - left. simpl. lia.
Defined.

(** X8: when [trim_mapped_reads] returns, it returns the list it was given,
    every read of the list already lay within [start, end], and no read
    object has changed. *)
Theorem trim_mapped_reads_effect (h h' : store) (mapped_reads out : list read_ref)
    (start end_ : Z) :
  trim_mapped_reads h mapped_reads start end_ = Ok (h', out) ->
  out = mapped_reads
  /\ (forall a, In a mapped_reads ->
                start <= reference_start (h a) /\ reference_end (h a) <= end_)
  /\ (forall b, h' b = h b).
Proof.
  intros Hok. split; [|split].
  - apply trim_for_returns_refs in Hok. exact Hok.
  - intros a Ha. apply needs_clip_false_iff.
    apply (proj1 (trim_for_effect start end_ mapped_reads h [] h' out Hok) a Ha).
  - apply (proj2 (trim_for_effect start end_ mapped_reads h [] h' out Hok)).
Qed.

Lemma trim_mapped_reads_effect_witness :
  exists h',
    trim_mapped_reads ReadExamples.heap [2%nat; 3%nat] 10 40
    = Ok (h', [2%nat; 3%nat])
    /\ forall b, h' b = ReadExamples.heap b.
Proof.
  set (h' := store_set (store_set ReadExamples.heap 2%nat ReadExamples.within)
               3%nat ReadExamples.no_quality_within).
  assert (Hok : trim_mapped_reads ReadExamples.heap [2%nat; 3%nat] 10 40
                = Ok (h', [2%nat; 3%nat])) by reflexivity.
  exists h'. split; [exact Hok|].
  exact (proj2 (proj2 (trim_mapped_reads_effect ReadExamples.heap h'
                         [2%nat; 3%nat] [2%nat; 3%nat] 10 40 Hok))).
Defined.

(** X9: when every listed read already lies within [start, end], the call
    returns and no read object has changed, with or without quality array. *)
Theorem trim_mapped_reads_inside_is_noop (h : store) (mapped_reads : list read_ref)
    (start end_ : Z) :
  (forall a, In a mapped_reads ->
             start <= reference_start (h a) /\ reference_end (h a) <= end_) ->
  exists h',
    trim_mapped_reads h mapped_reads start end_ = Ok (h', mapped_reads)
    /\ forall a, h' a = h a.
Proof.
  intros Hinside.
  destruct (trim_for_no_clip start end_ mapped_reads h []) as (h' & Hok & Hsame).
  { intros a Ha. apply needs_clip_false_iff. apply Hinside. exact Ha. }
  exists h'. split; [exact Hok | exact Hsame].
Qed.

Lemma trim_mapped_reads_inside_is_noop_witness :
  exists h',
    trim_mapped_reads ReadExamples.heap [2%nat; 3%nat] 10 40 = Ok (h', [2%nat; 3%nat])
    /\ forall a, h' a = ReadExamples.heap a.
Proof.
  apply (trim_mapped_reads_inside_is_noop ReadExamples.heap [2%nat; 3%nat] 10 40).
  intros a [<-|[<-|[]]]; simpl; lia.
Defined.

(** ** From the interval to the output file *)

(** ** From the interval to the output file *)

Lemma store_of_refs (reads : list AlignedSegment) (a : read_ref) :
  In a (refs_of reads) -> In (store_of reads a) reads.
Proof.
  unfold refs_of, store_of. rewrite in_seq. intros [_ Hlt].
  apply nth_In. simpl in Hlt. exact Hlt.
Qed.

Lemma selected_none (start end_ : Z) (fetched : list AlignedSegment) :
  (forall read, In read fetched -> selected start end_ read = false) ->
  filter (selected start end_) fetched = [].
Proof.
  intros Hnone. destruct (filter (selected start end_) fetched) as [|read kept] eqn:Hf;
    [reflexivity|].
  assert (Hin : In read (filter (selected start end_) fetched))
    by (rewrite Hf; left; reflexivity).
  apply filter_In in Hin. destruct Hin as [Hin Hsel].
  rewrite (Hnone read Hin) in Hsel. discriminate.
Qed.

Lemma from_dict_to_dict (hdr : AlignmentHeader) : from_dict (to_dict hdr) = hdr.
Proof. destruct hdr. reflexivity. Qed.

Lemma map_store_of_refs (reads : list AlignedSegment) :
  map (store_of reads) (refs_of reads) = reads.
Proof.
  unfold store_of, refs_of. induction reads as [|read reads IH]; simpl.
  - reflexivity.
  - f_equal. rewrite <- seq_shift, map_map. exact IH.
Qed.

(** X14: when none of the fetched reads is selected, the steps after the
    lookup end in the index error of the writer: no file is written, not
    even an empty one. *)
Theorem main_after_lookup_nothing_selected (bam : AlignmentFile)
    (amplicon_name chrom : string) (start end_ : Z) :
  In chrom (references bam) ->
  (forall read, In read (fetch bam chrom start end_) ->
                selected start end_ read = false) ->
  main_after_lookup bam amplicon_name chrom start end_
  = Raise (IndexError "list index out of range").
Proof.
  intros Hchrom Hnone. unfold main_after_lookup, extract_mapped_reads.
  rewrite (known_contig _ _ Hchrom), extract_for_filter.
  rewrite (selected_none start end_ _ Hnone). reflexivity.
Qed.

Lemma main_after_lookup_nothing_selected_witness :
  main_after_lookup RunExamples.empty_bam "AMP1" "chr1" 10 40
  = Raise (IndexError "list index out of range").
Proof.
  apply (main_after_lookup_nothing_selected RunExamples.empty_bam "AMP1" "chr1" 10 40).
  - left. reflexivity.
  - intros read [<-|[<-|[]]]; reflexivity.
Defined.

(** X13: when a selected read begins before the start or ends after the end
    of the interval, the steps after the lookup end in the error of
    subscripting [None], raised while trimming; no file is written. *)
Theorem main_after_lookup_raises_on_clip (bam : AlignmentFile)
    (amplicon_name chrom : string) (start end_ : Z) (read : AlignedSegment) :
  In chrom (references bam) ->
  In read (fetch bam chrom start end_) ->
  selected start end_ read = true ->
  reference_start read < start \/ reference_end read > end_ ->
  main_after_lookup bam amplicon_name chrom start end_
  = Raise none_subscript_error.
Proof.
  intros Hchrom Hin Hsel Hclip.
  unfold main_after_lookup, extract_mapped_reads.
  rewrite (known_contig _ _ Hchrom), extract_for_filter. cbn [bind app].
  set (kept := filter (selected start end_) (fetch bam chrom start end_)).
  assert (Hkept : In read kept) by (apply filter_In; split; assumption).
  destruct (In_nth kept read unallocated Hkept) as (a & Ha & Hnth).
  unfold trim_mapped_reads.
  rewrite (trim_for_raises start end_ (refs_of kept) a (store_of kept) []).
  - reflexivity.
  - unfold refs_of. apply in_seq. lia.
  - unfold store_of. rewrite Hnth. apply needs_clip_true_iff. exact Hclip.
Qed.

Lemma main_after_lookup_raises_on_clip_witness :
  main_after_lookup ReadExamples.bam "AMP1" "chr1" 10 40
  = Raise none_subscript_error.
Proof.
  apply (main_after_lookup_raises_on_clip ReadExamples.bam "AMP1" "chr1" 10 40
           ReadExamples.spanning).
  - left. reflexivity.
  - left. reflexivity.
  - reflexivity.
  - left. simpl. lia.
Defined.

(** X15: when the contig is known, at least one fetched read is selected and
    every selected read lies within [start, end], the steps after the lookup
    write the file [<amplicon_name>_extracted_reads.bam]: its records are the
    selected reads, unchanged and in fetch order, under the header of the
    first of them, and the line printed names the file. *)
Theorem main_after_lookup_writes (bam : AlignmentFile)
    (amplicon_name chrom : string) (start end_ : Z)
    (first : AlignedSegment) (others : list AlignedSegment) :
  In chrom (references bam) ->
  filter (selected start end_) (fetch bam chrom start end_) = first :: others ->
  (forall read, In read (first :: others) ->
                start <= reference_start read /\ reference_end read <= end_) ->
  main_after_lookup bam amplicon_name chrom start end_
  = Ok (mkOut (amplicon_name ++ "_extracted_reads.bam") (header first)
              (first :: others),
        "Extracted mapped reads written to "
        ++ amplicon_name ++ "_extracted_reads.bam").
Proof.
  intros Hchrom Hkept Hinside.
  set (kept := first :: others) in *.
  destruct (trim_for_no_clip start end_ (refs_of kept) (store_of kept) [])
    as (h & Htrim & Hsame).
  { intros a Ha. apply needs_clip_false_iff. apply Hinside.
    apply store_of_refs. exact Ha. }
  unfold main_after_lookup, extract_mapped_reads.
  rewrite (known_contig _ _ Hchrom), extract_for_filter, Hkept.
  cbn [bind]. change ([] ++ kept)%list with kept.
  unfold trim_mapped_reads. rewrite Htrim. cbn [bind app].
  assert (Hrecords : map h (refs_of kept) = kept).
  { rewrite <- (map_store_of_refs kept) at 2.
    apply map_ext. exact Hsame. }
  change (refs_of kept) with (0%nat :: seq 1 (List.length others)) in *.
  unfold write_mapped_reads_to_bam. cbn [PySlice.first bind].
  rewrite write_for_map. cbn [app]. rewrite Hrecords.
  rewrite from_dict_to_dict, Hsame. reflexivity.
Qed.

Lemma main_after_lookup_writes_witness :
  main_after_lookup RunExamples.inside_bam "AMP1" "chr1" 10 40
  = Ok (mkOut "AMP1_extracted_reads.bam" ReadExamples.hdr
              [ReadExamples.within; ReadExamples.no_quality_within],
        "Extracted mapped reads written to AMP1_extracted_reads.bam").
Proof.
  apply (main_after_lookup_writes RunExamples.inside_bam "AMP1" "chr1" 10 40
           ReadExamples.within [ReadExamples.no_quality_within]).
  - left. reflexivity.
  - reflexivity.
  - intros read [<-|[<-|[]]]; simpl; lia.
Defined.
